(** * VaultUSD peg-stability simulator: a shallow embedding of
      [sim/peg_simulation.py] and the properties of its liquidation
      state machine.

    The Python program keeps a list of [Vault] objects, a collateral price
    and a history of [SystemState] snapshots inside a [VaultUSDSimulator]
    object.  Every number is a Python [float], that is an IEEE 754 binary64
    value, so the arithmetic below is the binary64 arithmetic of the
    standard library's [SpecFloat] (round to nearest even, signed zeros,
    infinities and NaN), not an idealised real arithmetic. *)

From Stdlib Require Import ZArith List String Bool Arith Lia.
From Stdlib Require Import Floats.SpecFloat.
Import ListNotations.

Local Open Scope string_scope.
Local Open Scope list_scope.

(** ** Python floats *)

Module PyFloat.

(** binary64: 53 bits of mantissa, infinities at exponent 1024. *)
Definition prec : Z := 53.
Definition emax : Z := 1024.

Definition float : Type := spec_float.

Definition fmul : float -> float -> float := SFmul prec emax.
Definition fdiv : float -> float -> float := SFdiv prec emax.
Definition fadd : float -> float -> float := SFadd prec emax.

(** [x == y], [x < y] and [x <= y] on floats; all three are [False] as
    soon as one side is NaN, and [-0.0 == 0.0]. *)
Definition feqb : float -> float -> bool := SFeqb.
Definition fltb : float -> float -> bool := SFltb.
Definition fleb : float -> float -> bool := SFleb.

(** [float(n)] for a Python [int]: the nearest binary64 value.  An [int]
    that meets a [float] in [*], [/], [+] or a comparison is converted
    this way first (the conversion is exact for every integer the
    program itself writes down). *)
Definition of_int (n : Z) : float := binary_normalize prec emax n 0 false.

(** The [int] literal [0] of [debt == 0] and of the start of [sum]. *)
Definition zero : float := S754_zero false.

(** [float('inf')] *)
Definition inf : float := S754_infinity false.

(** The literals [1.5] and [1.1] as binary64 values: mantissa and
    exponent of the double nearest to the decimal. *)
Definition lit_1_5 : float := S754_finite false 6755399441055744 (-52).
Definition lit_1_1 : float := S754_finite false 4953959590107546 (-52).

(** [sum(xs)]: starts from the [int] [0] and adds from left to right.
    (CPython 3.12 and later carry a compensation term through a sum of
    floats; on the totals of the scenario, which are exact, both
    agree.) *)
Definition py_sum (xs : list float) : float := fold_left fadd xs zero.

(** [0.0] or [-0.0]. *)
Definition is_zero (x : float) : bool :=
  match x with S754_zero _ => true | _ => false end.

End PyFloat.
Import PyFloat.

(** ** Data model *)

(** [@dataclass class Vault].  A Python object has an identity besides its
    fields: [ident] is that identity (the allocation number of the object).
    No statement of the program assigns to a field of a [Vault] after its
    construction, so an object is represented by its identity together with
    the field values it was built with. *)
Record Vault : Type := mkVault {
  ident : nat;
  collateral_eth : float;
  debt_susd : float;
  owner : string
}.

(** [@dataclass class SystemState] *)
Record SystemState : Type := mkSystemState {
  total_collateral_eth : float;
  total_debt_susd : float;
  eth_price_usd : float;
  collateralization_ratio : float;
  timestamp : Z
}.

(** The attributes of a [VaultUSDSimulator] instance set by [__init__],
    and the allocator [fresh] that numbers the [Vault] objects. *)
Record VaultUSDSimulator : Type := mkSim {
  eth_price : float;
  vaults : list Vault;
  history : list SystemState;
  fresh : nat
}.

(** Class constants. *)
Definition COLLATERALIZATION_RATIO : float := lit_1_5.
Definition LIQUIDATION_THRESHOLD : float := lit_1_1.

(** [VaultUSDSimulator.__init__(initial_eth_price)] *)
Definition init (initial_eth_price : float) : VaultUSDSimulator :=
  {| eth_price := initial_eth_price; vaults := []; history := []; fresh := 0 |}.

(** ** Object comparison *)

(** [a is b] *)
Definition py_is (a b : Vault) : bool := Nat.eqb (ident a) (ident b).

(** [a == b], the [__eq__] that [@dataclass] generates: the tuples of
    fields, in declaration order, are compared with [==]. *)
Definition Vault_eq (a b : Vault) : bool :=
  feqb (collateral_eth a) (collateral_eth b)
  && feqb (debt_susd a) (debt_susd b)
  && String.eqb (owner a) (owner b).

(** ** Effects: the simulator object is threaded through every method, and
       a method may raise. *)

Inductive exn : Type :=
| ValueError.   (* list.remove(x): x not in list *)

Inductive result (A : Type) : Type :=
| Ok (a : A)
| Raise (e : exn).
Arguments Ok {A} a.
Arguments Raise {A} e.

Definition M (A : Type) : Type := VaultUSDSimulator -> result (A * VaultUSDSimulator).

Definition ret {A} (a : A) : M A := fun self => Ok (a, self).

Definition bind {A B} (c : M A) (k : A -> M B) : M B :=
  fun self =>
    match c self with
    | Ok (a, self') => k a self'
    | Raise e => Raise e
    end.

Definition raise {A} (e : exn) : M A := fun _ => Raise e.

Declare Scope sim_scope.
Delimit Scope sim_scope with sim.
Notation "x <- c ;; k" := (bind c (fun x => k))
  (at level 61, c at next level, right associativity) : sim_scope.
Notation "c ;; k" := (bind c (fun _ => k))
  (at level 61, right associativity) : sim_scope.
Local Open Scope sim_scope.

(** Reading an attribute of [self]. *)
Definition gets {A} (f : VaultUSDSimulator -> A) : M A := fun self => Ok (f self, self).

(** [self.eth_price = p] *)
Definition set_eth_price (p : float) : M unit :=
  fun self =>
    Ok (tt, {| eth_price := p; vaults := vaults self;
               history := history self; fresh := fresh self |}).

(** [self.vaults] after an in-place update of the list. *)
Definition set_vaults (vs : list Vault) : M unit :=
  fun self =>
    Ok (tt, {| eth_price := eth_price self; vaults := vs;
               history := history self; fresh := fresh self |}).

(** [Vault(collateral_eth, debt_susd, owner)]: a new object. *)
Definition new_Vault (collateral debt : float) (o : string) : M Vault :=
  fun self =>
    Ok ({| ident := fresh self; collateral_eth := collateral;
           debt_susd := debt; owner := o |},
        {| eth_price := eth_price self; vaults := vaults self;
           history := history self; fresh := S (fresh self) |}).

(** [self.vaults.append(vault)] *)
Definition vaults_append (vault : Vault) : M unit :=
  vs <- gets vaults ;; set_vaults (vs ++ [vault]).

(** [l.remove(x)]: deletes the first item that is [x] or equals [x];
    [None] stands for the [ValueError] of a list without such an item. *)
Fixpoint list_remove (x : Vault) (l : list Vault) : option (list Vault) :=
  match l with
  | [] => None
  | item :: l' =>
      if py_is item x || Vault_eq item x then Some l'
      else option_map (cons item) (list_remove x l')
  end.

(** [self.vaults.remove(vault)] *)
Definition vaults_remove (vault : Vault) : M unit :=
  vs <- gets vaults ;;
  match list_remove vault vs with
  | Some vs' => set_vaults vs'
  | None => raise ValueError
  end.

(** [self.history.append(state)] *)
Definition history_append (st : SystemState) : M unit :=
  fun self =>
    Ok (tt, {| eth_price := eth_price self; vaults := vaults self;
               history := history self ++ [st]; fresh := fresh self |}).

(** [[x for x in xs if cond(x)]] where [cond] is a method call. *)
Fixpoint filterM {A} (cond : A -> M bool) (xs : list A) : M (list A) :=
  match xs with
  | [] => ret []
  | x :: xs' =>
      b <- cond x ;;
      rest <- filterM cond xs' ;;
      ret (if b then x :: rest else rest)
  end.

(** [for x in xs: body(x)] *)
Fixpoint for_each {A B} (xs : list A) (body : A -> M B) : M unit :=
  match xs with
  | [] => ret tt
  | x :: xs' => body x ;; for_each xs' body
  end.

(** [enumerate(xs)], counting from [i]. *)
Fixpoint enumerate_from {A} (i : Z) (xs : list A) : list (Z * A) :=
  match xs with
  | [] => []
  | x :: xs' => (i, x) :: enumerate_from (i + 1) xs'
  end.

(** ** The methods of [VaultUSDSimulator] *)

Definition create_vault (o : string) (collateral debt : float) : M Vault :=
  vault <- new_Vault collateral debt o ;;
  vaults_append vault ;;
  ret vault.

Definition get_vault_health (vault : Vault) : M float :=
  if feqb (debt_susd vault) zero then ret inf
  else
    price <- gets eth_price ;;
    let collateral_value := fmul (collateral_eth vault) price in
    ret (fdiv collateral_value (debt_susd vault)).

Definition is_healthy (vault : Vault) : M bool :=
  h <- get_vault_health vault ;;
  ret (fleb COLLATERALIZATION_RATIO h).

Definition is_liquidatable (vault : Vault) : M bool :=
  if feqb (debt_susd vault) zero then ret false
  else
    h <- get_vault_health vault ;;
    ret (fltb h LIQUIDATION_THRESHOLD).

Definition liquidate_vault (vault : Vault) : M bool :=
  b <- is_liquidatable vault ;;
  if negb b then ret false
  else
    vaults_remove vault ;;
    ret true.

Definition update_price (new_price : float) : M unit :=
  set_eth_price new_price ;;
  vs <- gets vaults ;;
  vaults_to_liquidate <- filterM is_liquidatable vs ;;
  for_each vaults_to_liquidate liquidate_vault.

Definition get_system_state (ts : Z) : M SystemState :=
  vs <- gets vaults ;;
  let total_collateral := py_sum (map collateral_eth vs) in
  let total_debt := py_sum (map debt_susd vs) in
  price <- gets eth_price ;;
  let ratio :=
    if feqb total_debt zero then inf
    else fdiv (fmul total_collateral price) total_debt in
  ret {| total_collateral_eth := total_collateral;
         total_debt_susd := total_debt;
         eth_price_usd := price;
         collateralization_ratio := ratio;
         timestamp := ts |}.

Definition record_state (ts : Z) : M unit :=
  st <- get_system_state ts ;;
  history_append st.

(** ** The scenario [simulate_price_shock] *)

(** The body of [simulate_price_shock] after the construction of [sim],
    with the list of prices of the loop as a parameter. *)
Definition price_shock (prices : list Z) : M unit :=
  create_vault "user1" (of_int 10) (of_int 10000) ;;
  create_vault "user2" (of_int 5) (of_int 5000) ;;
  create_vault "user3" (of_int 3) (of_int 3000) ;;
  record_state 0 ;;
  for_each (enumerate_from 0 prices)
    (fun '(i, price) => update_price (of_int price) ;; record_state (i + 1)).

Definition shock_prices : list Z := [2000; 1800; 1600; 1400; 1200; 1000; 800]%Z.

(** [sim] as [simulate_price_shock()] returns it. *)
Definition simulate_price_shock : result VaultUSDSimulator :=
  match price_shock shock_prices (init (of_int 2000)) with
  | Ok (_, sim) => Ok sim
  | Raise e => Raise e
  end.

(** ** Pure readings of the two predicates, used to state the theorems *)

(** What [get_vault_health] computes at price [p]. *)
Definition health (p : float) (v : Vault) : float :=
  if feqb (debt_susd v) zero then inf
  else fdiv (fmul (collateral_eth v) p) (debt_susd v).

(** What [is_liquidatable] answers at price [p]. *)
Definition liquidatable (p : float) (v : Vault) : bool :=
  if feqb (debt_susd v) zero then false
  else fltb (health p v) LIQUIDATION_THRESHOLD.

(** An identity denotes one object: two entries of a list of vaults with
    the same identity are the same vault.  (A Python list may hold one
    object several times; it cannot hold two objects under one identity.) *)
Definition coherent (vs : list Vault) : Prop :=
  forall a b, In a vs -> In b vs -> ident a = ident b -> a = b.

(** The representation invariant of the simulator: the registry is
    coherent, and the allocator has not yet handed out the identities in
    use. *)
Definition wf (self : VaultUSDSimulator) : Prop :=
  coherent (vaults self) /\
  Forall (fun v => ident v < fresh self) (vaults self).


(** The registry once the positions liquidatable at price [p] are gone. *)
Definition survivors (p : float) (vs : list Vault) : list Vault :=
  filter (fun v => negb (liquidatable p v)) vs.

(** The simulator after a sweep at price [p]. *)
Definition swept (p : float) (self : VaultUSDSimulator) : VaultUSDSimulator :=
  {| eth_price := p; vaults := survivors p (vaults self);
     history := history self; fresh := fresh self |}.

(** ** Concrete simulators *)

(** The three vaults of [simulate_price_shock], as [create_vault] builds
    them, and the simulator that holds them at the initial price. *)
Definition user1 : Vault :=
  {| ident := 0; collateral_eth := of_int 10; debt_susd := of_int 10000; owner := "user1" |}.
Definition user2 : Vault :=
  {| ident := 1; collateral_eth := of_int 5; debt_susd := of_int 5000; owner := "user2" |}.
Definition user3 : Vault :=
  {| ident := 2; collateral_eth := of_int 3; debt_susd := of_int 3000; owner := "user3" |}.

Definition three_vaults : VaultUSDSimulator :=
  {| eth_price := of_int 2000; vaults := [user1; user2; user3];
     history := []; fresh := 3 |}.

(** The registry after the first [k] rounds of the loop of
    [simulate_price_shock]. *)
Definition vaults_after (k : nat) : option (list Vault) :=
  match price_shock (firstn k shock_prices) (init (of_int 2000)) with
  | Ok (_, sim) => Some (vaults sim)
  | Raise _ => None
  end.

(** A vault without debt. *)
Definition debt_free : Vault :=
  {| ident := 3; collateral_eth := of_int 10; debt_susd := of_int 0; owner := "user4" |}.

(** Two vaults opened with the same arguments: two objects, equal fields. *)
Definition twin1 : Vault :=
  {| ident := 0; collateral_eth := of_int 1; debt_susd := of_int 1000; owner := "user1" |}.
Definition twin2 : Vault :=
  {| ident := 1; collateral_eth := of_int 1; debt_susd := of_int 1000; owner := "user1" |}.

Definition twins : VaultUSDSimulator :=
  {| eth_price := of_int 1000; vaults := [twin1; twin2]; history := []; fresh := 2 |}.

(** ** Further values and the series of [plot_simulation] *)

(** [float('nan')] *)
Definition nan : float := S754_nan.

(** Neither an infinity nor NaN. *)
Definition is_finite (x : float) : bool :=
  match x with
  | S754_zero _ | S754_finite _ _ _ => true
  | _ => false
  end.

(** The literal [5.0]. *)
Definition lit_5_0 : float := S754_finite false 5629499534213120 (-50).

(** [min(a, b)] with two arguments: [b] when [b < a], otherwise [a]. *)
Definition py_min (a b : float) : float := if fltb b a then b else a.

(** The lists that [plot_simulation] builds from [sim.history] before it
    plots them. *)
Definition plot_timestamps (h : list SystemState) : list Z := map timestamp h.
Definition plot_prices (h : list SystemState) : list float := map eth_price_usd h.
Definition plot_total_debt (h : list SystemState) : list float := map total_debt_susd h.
Definition plot_total_collateral (h : list SystemState) : list float :=
  map total_collateral_eth h.
Definition plot_ratios (h : list SystemState) : list float :=
  map (fun s => py_min (collateralization_ratio s) lit_5_0) h.

(** A simulator with one recorded snapshot. *)
Definition recorded_once : VaultUSDSimulator :=
  {| eth_price := of_int 2000; vaults := [];
     history := [{| total_collateral_eth := zero; total_debt_susd := zero;
                    eth_price_usd := of_int 2000; collateralization_ratio := inf;
                    timestamp := 0 |}];
     fresh := 0 |}.

(** A simulator whose only vault has no debt. *)
Definition only_debt_free : VaultUSDSimulator :=
  {| eth_price := of_int 2000; vaults := [debt_free]; history := []; fresh := 4 |}.

(** A vault built outside the simulator, and the three vaults of the
    scenario at the price 1000. *)
Definition stranger : Vault :=
  {| ident := 9; collateral_eth := of_int 1; debt_susd := of_int 1000; owner := "user9" |}.

Definition three_vaults_at_1000 : VaultUSDSimulator :=
  {| eth_price := of_int 1000; vaults := [user1; user2; user3];
     history := []; fresh := 3 |}.

(** ** Facts on float comparison *)

Lemma feqb_true_inv (x y : float) :
  feqb x y = true -> x = y \/ (is_zero x = true /\ is_zero y = true).
Proof.
  unfold feqb, SFeqb, SFcompare.
  destruct x as [sx| sx | |sx mx ex], y as [sy|sy| |sy my ey]; simpl;
    intro H; try discriminate H; auto;
    try (destruct sx; discriminate H); try (destruct sy; discriminate H).
  - destruct sx, sy; try discriminate H; auto.
  - destruct sx, sy; try discriminate H;
      destruct (Z.compare ex ey) eqn:He; try discriminate H;
      apply Z.compare_eq in He; subst ey;
      destruct (Pos.compare_cont Eq mx my) eqn:Hm; try discriminate H;
      apply Pos.compare_eq in Hm; subst my; auto.
Qed.

(** The two literals are the doubles nearest to 3/2 and to 11/10: the
    division of binary64 rounds the exact quotient to the nearest double. *)
Lemma COLLATERALIZATION_RATIO_value :
  COLLATERALIZATION_RATIO = fdiv (of_int 3) (of_int 2).
Proof. reflexivity. Qed.

Lemma LIQUIDATION_THRESHOLD_value :
  LIQUIDATION_THRESHOLD = fdiv (of_int 11) (of_int 10).
Proof. reflexivity. Qed.

Lemma is_zero_feqb_zero (x : float) : is_zero x = true -> feqb x zero = true.
Proof. destruct x; simpl; try discriminate; reflexivity. Qed.

Lemma fltb_zero_not_eq (x : float) : fltb zero x = true -> feqb x zero = false.
Proof.
  unfold fltb, feqb, SFltb, SFeqb, zero.
  destruct x as [s|s| |s m e]; simpl; intro H; try discriminate H; auto;
    destruct s; auto; discriminate H.
Qed.

(** Two vaults that [==] identifies get the same answer from
    [is_liquidatable]: their fields differ at most in the sign of a zero. *)
Lemma liquidatable_Vault_eq (p : float) (a b : Vault) :
  Vault_eq a b = true -> liquidatable p a = liquidatable p b.
Proof.
  unfold Vault_eq. intro H.
  apply andb_prop in H. destruct H as [H _].
  apply andb_prop in H. destruct H as [Hc Hd].
  unfold liquidatable, health.
  destruct (feqb_true_inv _ _ Hd) as [Ed | [Za Zb]].
  - rewrite Ed. destruct (feqb (debt_susd b) zero) eqn:Hz; [reflexivity|].
    destruct (feqb_true_inv _ _ Hc) as [Ec | [Ca Cb]].
    + now rewrite Ec.
    + destruct (collateral_eth a) as [sa| | |]; try discriminate Ca.
      destruct (collateral_eth b) as [sb| | |]; try discriminate Cb.
      destruct p as [sp|sp| |sp mp ep], (debt_susd b) as [sd|sd| |sd md ed];
        try discriminate Hz; reflexivity.
  - now rewrite (is_zero_feqb_zero _ Za), (is_zero_feqb_zero _ Zb).
Qed.

(** ** What the methods compute *)

Lemma get_vault_health_run (v : Vault) (self : VaultUSDSimulator) :
  get_vault_health v self = Ok (health (eth_price self) v, self).
Proof.
  unfold get_vault_health, health.
  destruct (feqb (debt_susd v) zero); reflexivity.
Qed.

Lemma is_liquidatable_run (v : Vault) (self : VaultUSDSimulator) :
  is_liquidatable v self = Ok (liquidatable (eth_price self) v, self).
Proof.
  unfold is_liquidatable, liquidatable.
  destruct (feqb (debt_susd v) zero); [reflexivity|].
  unfold bind. now rewrite get_vault_health_run.
Qed.

Lemma filterM_is_liquidatable (vs : list Vault) (self : VaultUSDSimulator) :
  filterM is_liquidatable vs self = Ok (filter (liquidatable (eth_price self)) vs, self).
Proof.
  induction vs as [|v vs IH]; [reflexivity|].
  cbn [filterM filter]. unfold bind at 1. rewrite is_liquidatable_run.
  unfold bind. rewrite IH. unfold ret.
  now destruct (liquidatable (eth_price self) v).
Qed.

(** [remove] passes over the items that neither are nor equal [x]. *)
Lemma list_remove_app (x : Vault) (pre post : list Vault) :
  Forall (fun item => py_is item x || Vault_eq item x = false) pre ->
  list_remove x (pre ++ post) = option_map (app pre) (list_remove x post).
Proof.
  induction 1 as [|item pre Hitem _ IH]; cbn [app list_remove].
  - now destruct (list_remove x post).
  - rewrite Hitem, IH. now destruct (list_remove x post).
Qed.

Lemma py_is_refl (x : Vault) : py_is x x = true.
Proof. apply Nat.eqb_refl. Qed.

Lemma list_remove_here (x : Vault) (pre post : list Vault) :
  Forall (fun item => py_is item x || Vault_eq item x = false) pre ->
  list_remove x (pre ++ x :: post) = Some (pre ++ post).
Proof.
  intro H. rewrite (list_remove_app _ _ _ H).
  cbn [list_remove]. now rewrite py_is_refl.
Qed.

Lemma liquidate_vault_run (v : Vault) (self : VaultUSDSimulator) :
  liquidate_vault v self =
  if liquidatable (eth_price self) v then
    match list_remove v (vaults self) with
    | Some vs' => Ok (true, {| eth_price := eth_price self; vaults := vs';
                               history := history self; fresh := fresh self |})
    | None => Raise ValueError
    end
  else Ok (false, self).
Proof.
  unfold liquidate_vault, bind. rewrite is_liquidatable_run.
  destruct (liquidatable (eth_price self) v); cbn [negb]; [|reflexivity].
  unfold vaults_remove, bind, gets.
  now destruct (list_remove v (vaults self)).
Qed.

(** ** The sweep of [update_price] *)

Lemma coherent_incl (l l' : list Vault) :
  incl l l' -> coherent l' -> coherent l.
Proof. intros Hi Hc a b Ha Hb. apply Hc; now apply Hi. Qed.

(** An item that the sweep has kept cannot stop [remove] on its way to a
    liquidatable vault: it is another object, and it is not equal. *)
Lemma kept_not_matched (p : float) (x : Vault) (pre post : list Vault) :
  coherent (pre ++ x :: post) ->
  Forall (fun v => liquidatable p v = false) pre ->
  liquidatable p x = true ->
  Forall (fun item => py_is item x || Vault_eq item x = false) pre.
Proof.
  intros Hco Hkept Hx.
  rewrite Forall_forall in *. intros item Hin.
  specialize (Hkept _ Hin).
  apply orb_false_intro.
  - unfold py_is. apply Nat.eqb_neq. intro E.
    assert (item = x) as ->.
    { apply Hco; [apply in_or_app; now left | apply in_elt | exact E]. }
    rewrite Hx in Hkept. discriminate Hkept.
  - destruct (Vault_eq item x) eqn:Heq; [|reflexivity].
    apply (liquidatable_Vault_eq p) in Heq.
    rewrite Hkept, Hx in Heq. discriminate Heq.
Qed.

(** The loop [for vault in vaults_to_liquidate: self.liquidate_vault(vault)],
    started when the part [pre] of the registry holds no liquidatable vault
    and the vaults still to liquidate are those of [rest]. *)
Lemma sweep_loop (p : float) (h : list SystemState) (n : nat) (rest : list Vault) :
  forall pre : list Vault,
    coherent (pre ++ rest) ->
    Forall (fun v => liquidatable p v = false) pre ->
    for_each (filter (liquidatable p) rest) liquidate_vault
      {| eth_price := p; vaults := pre ++ rest; history := h; fresh := n |}
    = Ok (tt, {| eth_price := p; vaults := pre ++ survivors p rest;
                 history := h; fresh := n |}).
Proof.
  induction rest as [|x rest IH]; intros pre Hco Hkept.
  - reflexivity.
  - cbn [filter survivors]. fold (survivors p rest).
    destruct (liquidatable p x) eqn:Hx; cbn [negb].
    + cbn [for_each]. unfold bind at 1.
      rewrite liquidate_vault_run. cbn [eth_price vaults history fresh].
      rewrite Hx, (list_remove_here x pre rest (kept_not_matched p x pre rest Hco Hkept Hx)).
      apply IH; [|assumption].
      apply (coherent_incl _ (pre ++ x :: rest)); [|assumption].
      apply incl_app; [apply incl_appl, incl_refl|].
      apply incl_appr, incl_tl, incl_refl.
    + replace (pre ++ x :: rest) with ((pre ++ [x]) ++ rest) in *
        by (now rewrite <- app_assoc).
      replace (pre ++ x :: survivors p rest) with ((pre ++ [x]) ++ survivors p rest)
        by (now rewrite <- app_assoc).
      apply IH; [assumption|].
      apply Forall_app. split; [assumption|]. now constructor.
Qed.

(** [update_price] never raises on a well-formed simulator, and leaves the
    simulator [swept] at the new price. *)
Lemma update_price_run (new_price : float) (self : VaultUSDSimulator) :
  wf self -> update_price new_price self = Ok (tt, swept new_price self).
Proof.
  intros [Hco _].
  unfold update_price, bind at 1, set_eth_price.
  unfold bind at 1, gets. cbn [vaults].
  unfold bind. rewrite filterM_is_liquidatable. cbn [eth_price].
  apply (sweep_loop new_price (history self) (fresh self) (vaults self) []);
    [exact Hco | constructor].
Qed.

(** ** The representation invariant is kept by every method *)


Lemma create_vault_run (o : string) (c d : float) (self : VaultUSDSimulator) :
  create_vault o c d self =
  let v := {| ident := fresh self; collateral_eth := c; debt_susd := d; owner := o |} in
  Ok (v, {| eth_price := eth_price self; vaults := vaults self ++ [v];
            history := history self; fresh := S (fresh self) |}).
Proof. reflexivity. Qed.


Lemma survivors_incl (p : float) (vs : list Vault) : incl (survivors p vs) vs.
Proof. intros v Hv. unfold survivors in Hv. now apply filter_In in Hv. Qed.

Lemma wf_swept (p : float) (self : VaultUSDSimulator) : wf self -> wf (swept p self).
Proof.
  intros [Hco Hlt]. split; cbn [swept vaults fresh].
  - exact (coherent_incl _ _ (survivors_incl p _) Hco).
  - rewrite Forall_forall in *. intros v Hv. now apply Hlt, (survivors_incl p).
Qed.


Lemma list_remove_incl (x : Vault) (l l' : list Vault) :
  list_remove x l = Some l' -> incl l' l.
Proof.
  revert l'. induction l as [|item l IH]; intros l'; cbn [list_remove].
  - discriminate.
  - destruct (py_is item x || Vault_eq item x).
    + intros [= <-]. apply incl_tl, incl_refl.
    + destruct (list_remove x l) as [r|]; [|discriminate].
      intros [= <-]. apply incl_cons; [now left|].
      apply incl_tl. now apply IH.
Qed.


Lemma get_system_state_run (ts : Z) (self : VaultUSDSimulator) :
  get_system_state ts self =
  let total_collateral := py_sum (map collateral_eth (vaults self)) in
  let total_debt := py_sum (map debt_susd (vaults self)) in
  Ok ({| total_collateral_eth := total_collateral;
         total_debt_susd := total_debt;
         eth_price_usd := eth_price self;
         collateralization_ratio :=
           if feqb total_debt zero then inf
           else fdiv (fmul total_collateral (eth_price self)) total_debt;
         timestamp := ts |}, self).
Proof. reflexivity. Qed.


Lemma for_each_app {A B} (xs ys : list A) (body : A -> M B) (self : VaultUSDSimulator) :
  for_each (xs ++ ys) body self = (for_each xs body ;; for_each ys body) self.
Proof.
  revert self. induction xs as [|x xs IH]; intro self; cbn [app for_each].
  - reflexivity.
  - unfold bind. destruct (body x self) as [[b self']|e]; [|reflexivity].
    rewrite IH. reflexivity.
Qed.

Lemma enumerate_from_app {A} (xs ys : list A) (i : Z) :
  enumerate_from i (xs ++ ys) =
  enumerate_from i xs ++ enumerate_from (i + Z.of_nat (List.length xs)) ys.
Proof.
  revert i. induction xs as [|x xs IH]; intro i; cbn [app enumerate_from List.length].
  - now rewrite Z.add_0_r.
  - rewrite IH. do 3 f_equal. lia.
Qed.

(** The scenario run on a list of prices is the scenario run on a prefix,
    followed by the remaining rounds of the loop: [vaults_after k] is the
    registry of the full run when round [k] of its loop ends. *)
Lemma price_shock_app (xs ys : list Z) (self : VaultUSDSimulator) :
  price_shock (xs ++ ys) self =
  (price_shock xs ;;
   for_each (enumerate_from (Z.of_nat (List.length xs)) ys)
     (fun '(i, price) => update_price (of_int price) ;; record_state (i + 1))) self.
Proof.
  unfold price_shock. rewrite enumerate_from_app. cbn [Z.add].
  unfold bind at 1 6 7.
  destruct (create_vault "user1" (of_int 10) (of_int 10000) self) as [[v1 s1]|e];
    [|reflexivity].
  unfold bind at 1 5.
  destruct (create_vault "user2" (of_int 5) (of_int 5000) s1) as [[v2 s2]|e];
    [|reflexivity].
  unfold bind at 1 4.
  destruct (create_vault "user3" (of_int 3) (of_int 3000) s2) as [[v3 s3]|e];
    [|reflexivity].
  unfold bind at 1 3.
  destruct (record_state 0 s3) as [[u s4]|e]; [|reflexivity].
  apply for_each_app.
Qed.

Lemma survivors_idem (p : float) (vs : list Vault) :
  survivors p (survivors p vs) = survivors p vs.
Proof.
  unfold survivors. induction vs as [|v vs IH]; [reflexivity|].
  cbn [filter]. destruct (negb (liquidatable p v)) eqn:Hv; [|exact IH].
  cbn [filter]. now rewrite Hv, IH.
Qed.

Lemma wf_three_vaults : wf three_vaults.
Proof.
  split.
  - intros a b Ha Hb.
    cbn in Ha, Hb.
    destruct Ha as [<-|[<-|[<-|[]]]], Hb as [<-|[<-|[<-|[]]]];
      cbn; intro E; try reflexivity; discriminate E.
  - repeat constructor.
Qed.

Lemma wf_twins : wf twins.
Proof.
  split.
  - intros a b Ha Hb.
    cbn in Ha, Hb.
    destruct Ha as [<-|[<-|[]]], Hb as [<-|[<-|[]]];
      cbn; intro E; try reflexivity; discriminate E.
  - repeat constructor.
Qed.


(** ** The liquidation sweep *)

(** C1: on every simulator, [update_price(new_price)] returns, sets the price
    and removes exactly the vaults of the registry for which
    [is_liquidatable] holds at the new price, in the registry as the scan
    finds it: such a vault is gone after the call, a vault for which
    [is_liquidatable] is [False] is kept, nothing else enters the registry,
    and [is_liquidatable] is [False] for every vault that remains. *)
Theorem update_price_removes_exactly_liquidatable
    (new_price : float) (self : VaultUSDSimulator) :
  wf self ->
  let scan := {| eth_price := new_price; vaults := vaults self;
                 history := history self; fresh := fresh self |} in
  exists self',
    update_price new_price self = Ok (tt, self') /\
    eth_price self' = new_price /\
    (forall v, In v (vaults self) ->
       is_liquidatable v scan = Ok (true, scan) -> ~ In v (vaults self')) /\
    (forall v, In v (vaults self) ->
       is_liquidatable v scan = Ok (false, scan) -> In v (vaults self')) /\
    (forall v, In v (vaults self') -> In v (vaults self)) /\
    (forall v, In v (vaults self') -> is_liquidatable v self' = Ok (false, self')) /\
    vaults self' = filter (fun v => negb (liquidatable new_price v)) (vaults self).
Proof.
  intros Hwf scan. exists (swept new_price self).
  split; [now apply update_price_run|].
  split; [reflexivity|].
  assert (forall v, In v (survivors new_price (vaults self)) <->
                    In v (vaults self) /\ liquidatable new_price v = false) as Hsurv.
  { intro v. unfold survivors. now rewrite filter_In, negb_true_iff. }
  simpl vaults. repeat split.
  - intros v _ E Hv. apply Hsurv in Hv. destruct Hv as [_ Hv].
    rewrite is_liquidatable_run in E. simpl eth_price in E.
    rewrite Hv in E. discriminate E.
  - intros v Hin E. apply Hsurv. split; [exact Hin|].
    rewrite is_liquidatable_run in E. simpl eth_price in E.
    now injection E.
  - intros v Hv. now apply Hsurv in Hv.
  - intros v Hv. apply Hsurv in Hv. destruct Hv as [_ Hv].
    rewrite is_liquidatable_run. simpl eth_price. now rewrite Hv.
Qed.

Lemma update_price_removes_exactly_liquidatable_witness :
  wf three_vaults /\
  exists self',
    update_price (of_int 1000) three_vaults = Ok (tt, self') /\
    vaults self' = [].
Proof.
  split; [exact wf_three_vaults|].
  destruct (update_price_removes_exactly_liquidatable (of_int 1000) three_vaults wf_three_vaults)
    as (self' & Hrun & _ & _ & _ & _ & _ & Hvs).
  exists self'. split; [exact Hrun|].
  rewrite Hvs. vm_compute. reflexivity.
Defined.

(** C8: [update_price(p)] called twice in a row does what one call does: the
    second call returns and leaves the simulator, and so the registry, as
    the first call left it.  This holds for every price, the valid ones in
    particular. *)
Theorem update_price_twice (p : float) (self : VaultUSDSimulator) :
  wf self ->
  exists self1,
    update_price p self = Ok (tt, self1) /\
    update_price p self1 = Ok (tt, self1) /\
    (update_price p ;; update_price p) self = Ok (tt, self1).
Proof.
  intro Hwf. exists (swept p self).
  assert (update_price p (swept p self) = Ok (tt, swept p self)) as H2.
  { rewrite (update_price_run p _ (wf_swept p self Hwf)).
    unfold swept at 1. cbn [vaults history fresh swept].
    now rewrite survivors_idem. }
  split; [now apply update_price_run|]. split; [exact H2|].
  unfold bind. now rewrite (update_price_run p self Hwf).
Qed.

Lemma update_price_twice_witness :
  wf three_vaults /\
  exists self1,
    update_price (of_int 1000) three_vaults = Ok (tt, self1) /\
    update_price (of_int 1000) self1 = Ok (tt, self1).
Proof.
  split; [exact wf_three_vaults|].
  destruct (update_price_twice (of_int 1000) three_vaults wf_three_vaults)
    as (self1 & H1 & H2 & _).
  exists self1. split; assumption.
Defined.

(** C10: [update_price] only sets the price and drops whole vaults: the
    history and the allocator are untouched, every vault of the registry
    after the call was in the registry before it, and the object that
    survives under an identity has the owner, collateral and debt it had
    before the call. *)
Theorem update_price_frame (new_price : float) (self : VaultUSDSimulator) :
  wf self ->
  exists self',
    update_price new_price self = Ok (tt, self') /\
    history self' = history self /\
    fresh self' = fresh self /\
    eth_price self' = new_price /\
    (forall v, In v (vaults self') -> In v (vaults self)) /\
    (forall v w, In v (vaults self') -> In w (vaults self) -> ident v = ident w ->
       owner v = owner w /\
       collateral_eth v = collateral_eth w /\
       debt_susd v = debt_susd w).
Proof.
  intro Hwf. exists (swept new_price self).
  split; [now apply update_price_run|].
  repeat (split; [reflexivity|]).
  cbn [swept vaults]. split.
  - intros v Hv. now apply (survivors_incl new_price).
  - intros v w Hv Hw E. apply (survivors_incl new_price) in Hv.
    destruct Hwf as [Hco _]. now rewrite (Hco v w Hv Hw E).
Qed.

Lemma update_price_frame_witness :
  wf three_vaults /\
  exists self',
    update_price (of_int 1200) three_vaults = Ok (tt, self') /\
    history self' = [] /\
    (forall v, In v (vaults self') -> In v [user1; user2; user3]).
Proof.
  split; [exact wf_three_vaults|].
  destruct (update_price_frame (of_int 1200) three_vaults wf_three_vaults)
    as (self' & Hrun & Hh & _ & _ & Hin & _).
  exists self'. repeat split; assumption.
Defined.

(** ** Inputs that the specification calls invalid *)

(** C3, as stated, fails: for the price [-1.0] the call returns normally,
    the price of the simulator becomes [-1.0] and the three vaults of the
    scenario are removed. *)
Lemma update_price_accepts_negative_price :
  fleb (of_int (-1)) zero = true /\
  update_price (of_int (-1)) three_vaults =
    Ok (tt, {| eth_price := of_int (-1); vaults := []; history := []; fresh := 3 |}) /\
  eth_price three_vaults <> of_int (-1) /\
  vaults three_vaults <> [].
Proof.
  split; [reflexivity|]. split; [vm_compute; reflexivity|].
  split; discriminate.
Qed.

(** C3, amended: for every [new_price <= 0], [update_price(new_price)] does
    not fail: it stores [new_price] as it is and sweeps the registry at that
    price, like for any other price. *)
Theorem update_price_nonpositive (new_price : float) (self : VaultUSDSimulator) :
  wf self ->
  fleb new_price zero = true ->
  exists self',
    update_price new_price self = Ok (tt, self') /\
    eth_price self' = new_price /\
    vaults self' = filter (fun v => negb (liquidatable new_price v)) (vaults self) /\
    history self' = history self.
Proof.
  intros Hwf _. exists (swept new_price self).
  split; [now apply update_price_run|]. repeat split.
Qed.

Lemma update_price_nonpositive_witness :
  wf three_vaults /\
  fleb zero zero = true /\
  exists self',
    update_price zero three_vaults = Ok (tt, self') /\
    eth_price self' = zero /\
    vaults self' = [].
Proof.
  split; [exact wf_three_vaults|]. split; [reflexivity|].
  destruct (update_price_nonpositive zero three_vaults wf_three_vaults eq_refl)
    as (self' & Hrun & Hp & Hvs & _).
  exists self'. split; [exact Hrun|]. split; [exact Hp|].
  rewrite Hvs. vm_compute. reflexivity.
Defined.

(** C2, as stated, fails: [create_vault] with the collateral [-10.0] and
    the debt [-10000.0] returns normally and the registry, empty before,
    holds the new vault. *)
Lemma create_vault_accepts_negative_amounts :
  fltb (of_int (-10)) zero = true /\
  fltb (of_int (-10000)) zero = true /\
  create_vault "user1" (of_int (-10)) (of_int (-10000)) (init (of_int 2000)) =
    Ok ({| ident := 0; collateral_eth := of_int (-10);
           debt_susd := of_int (-10000); owner := "user1" |},
        {| eth_price := of_int 2000;
           vaults := [{| ident := 0; collateral_eth := of_int (-10);
                         debt_susd := of_int (-10000); owner := "user1" |}];
           history := []; fresh := 1 |}).
Proof. repeat split. Qed.

(** C2, amended: for every owner, collateral and debt of which one is
    negative, [create_vault] does not fail: it returns a new vault with
    exactly these values and appends it to the registry; price and history
    are unchanged. *)
Theorem create_vault_negative (o : string) (collateral debt : float)
    (self : VaultUSDSimulator) :
  fltb collateral zero = true \/ fltb debt zero = true ->
  exists v self',
    create_vault o collateral debt self = Ok (v, self') /\
    owner v = o /\ collateral_eth v = collateral /\ debt_susd v = debt /\
    vaults self' = vaults self ++ [v] /\
    eth_price self' = eth_price self /\
    history self' = history self.
Proof.
  intros _. do 2 eexists. rewrite create_vault_run. cbv zeta.
  repeat split.
Qed.

Lemma create_vault_negative_witness :
  (fltb (of_int (-10)) zero = true \/ fltb (of_int 10000) zero = true) /\
  exists v self',
    create_vault "user1" (of_int (-10)) (of_int 10000) three_vaults = Ok (v, self') /\
    collateral_eth v = of_int (-10) /\
    vaults self' = [user1; user2; user3; v].
Proof.
  split; [left; reflexivity|].
  destruct (create_vault_negative "user1" (of_int (-10)) (of_int 10000) three_vaults
              (or_introl eq_refl))
    as (v & self' & Hrun & _ & Hc & _ & Hvs & _).
  exists v, self'. split; [exact Hrun|]. split; [exact Hc|exact Hvs].
Defined.

(** ** Health and liquidatability *)

(** C5: [get_vault_health] returns [inf] when the debt equals zero and
    [(collateral_eth * price) / debt_susd] otherwise; the value depends on
    the vault and on the price only, and the simulator is returned as it
    was. *)
Theorem get_vault_health_spec (v : Vault) (price : float) (self : VaultUSDSimulator) :
  eth_price self = price ->
  get_vault_health v self =
    Ok (if feqb (debt_susd v) zero then inf
        else fdiv (fmul (collateral_eth v) price) (debt_susd v),
        self).
Proof.
  intros <-. unfold get_vault_health.
  destruct (feqb (debt_susd v) zero); reflexivity.
Qed.

Lemma get_vault_health_spec_witness :
  eth_price three_vaults = of_int 2000 /\
  get_vault_health user1 three_vaults = Ok (of_int 2, three_vaults).
Proof.
  split; [reflexivity|].
  rewrite (get_vault_health_spec user1 (of_int 2000) three_vaults eq_refl).
  vm_compute. reflexivity.
Defined.

(** C4: at a price [p > 0], [is_liquidatable] answers [False] for a vault
    whose debt is zero, and for a vault whose debt is positive it answers
    [True] exactly when [collateral_eth * p / debt_susd < 1.1]; the
    simulator is returned as it was. *)
Theorem is_liquidatable_spec (v : Vault) (self : VaultUSDSimulator) :
  fltb zero (eth_price self) = true ->
  (feqb (debt_susd v) zero = true ->
     is_liquidatable v self = Ok (false, self)) /\
  (fltb zero (debt_susd v) = true ->
     is_liquidatable v self =
       Ok (fltb (fdiv (fmul (collateral_eth v) (eth_price self)) (debt_susd v))
                LIQUIDATION_THRESHOLD,
           self)).
Proof.
  intros _. split; intro H; rewrite is_liquidatable_run; unfold liquidatable, health.
  - now rewrite H.
  - now rewrite (fltb_zero_not_eq _ H).
Qed.

Lemma is_liquidatable_spec_witness :
  fltb zero (eth_price three_vaults) = true /\
  fltb zero (debt_susd user1) = true /\
  is_liquidatable user1 three_vaults = Ok (false, three_vaults) /\
  is_liquidatable debt_free three_vaults = Ok (false, three_vaults).
Proof.
  split; [reflexivity|]. split; [reflexivity|]. split.
  - rewrite (proj2 (is_liquidatable_spec user1 three_vaults eq_refl) eq_refl).
    vm_compute. reflexivity.
  - exact (proj1 (is_liquidatable_spec debt_free three_vaults eq_refl) eq_refl).
Defined.

(** ** The system snapshot *)

(** C6: [get_system_state] returns a snapshot whose totals are the sums of
    the collaterals and of the debts of the vaults of the registry, whose
    ratio is [(total_collateral * price) / total_debt] when the total debt
    is positive and [inf] when the total debt equals zero, and it returns
    the simulator as it was. *)
Theorem get_system_state_spec (ts : Z) (self : VaultUSDSimulator) :
  exists st,
    get_system_state ts self = Ok (st, self) /\
    total_collateral_eth st = py_sum (map collateral_eth (vaults self)) /\
    total_debt_susd st = py_sum (map debt_susd (vaults self)) /\
    eth_price_usd st = eth_price self /\
    timestamp st = ts /\
    (fltb zero (total_debt_susd st) = true ->
       collateralization_ratio st =
         fdiv (fmul (total_collateral_eth st) (eth_price self)) (total_debt_susd st)) /\
    (feqb (total_debt_susd st) zero = true ->
       collateralization_ratio st = inf).
Proof.
  eexists. rewrite get_system_state_run. cbv zeta.
  split; [reflexivity|]. cbn [total_collateral_eth total_debt_susd eth_price_usd
                              timestamp collateralization_ratio].
  repeat (split; [reflexivity|]).
  split; intro H.
  - now rewrite (fltb_zero_not_eq _ H).
  - now rewrite H.
Qed.

Lemma get_system_state_spec_witness :
  exists st,
    get_system_state 0 three_vaults = Ok (st, three_vaults) /\
    total_collateral_eth st = of_int 18 /\
    total_debt_susd st = of_int 18000 /\
    collateralization_ratio st = of_int 2.
Proof.
  destruct (get_system_state_spec 0 three_vaults)
    as (st & Hrun & Hc & Hd & _ & _ & Hpos & _).
  exists st. split; [exact Hrun|].
  assert (total_collateral_eth st = of_int 18) as Hc'
    by (rewrite Hc; vm_compute; reflexivity).
  assert (total_debt_susd st = of_int 18000) as Hd'
    by (rewrite Hd; vm_compute; reflexivity).
  split; [exact Hc'|]. split; [exact Hd'|].
  rewrite Hpos; rewrite Hd'; [rewrite Hc'|]; vm_compute; reflexivity.
Defined.

(** ** Single liquidations *)

(** A vault that is not liquidatable at the current price: [False], and the
    simulator is as it was. *)
Lemma liquidate_vault_not_liquidatable (v : Vault) (self : VaultUSDSimulator) :
  liquidatable (eth_price self) v = false ->
  liquidate_vault v self = Ok (false, self).
Proof. intro H. rewrite liquidate_vault_run. now rewrite H. Qed.

(** A liquidatable vault of the registry that no earlier entry is or
    equals: [True], and exactly this entry is removed. *)
Lemma liquidate_vault_removes_it (v : Vault) (pre post : list Vault)
    (self : VaultUSDSimulator) :
  vaults self = pre ++ v :: post ->
  Forall (fun item => py_is item v || Vault_eq item v = false) pre ->
  liquidatable (eth_price self) v = true ->
  liquidate_vault v self =
    Ok (true, {| eth_price := eth_price self; vaults := pre ++ post;
                 history := history self; fresh := fresh self |}).
Proof.
  intros Hvs Hpre Hliq. rewrite liquidate_vault_run, Hliq, Hvs.
  now rewrite (list_remove_here v pre post Hpre).
Qed.

(** In general the entry that goes is the first one that is or equals the
    vault. *)
Lemma list_remove_first_match (x : Vault) (l : list Vault) :
  (exists w, In w l /\ py_is w x || Vault_eq w x = true) ->
  exists pre w post,
    l = pre ++ w :: post /\
    py_is w x || Vault_eq w x = true /\
    Forall (fun item => py_is item x || Vault_eq item x = false) pre /\
    list_remove x l = Some (pre ++ post).
Proof.
  induction l as [|item l IH]; intros (w & Hin & Hw).
  - destruct Hin.
  - cbn [list_remove].
    destruct (py_is item x || Vault_eq item x) eqn:Hitem.
    + exists [], item, l. repeat split; [assumption|constructor].
    + destruct IH as (pre & w' & post & -> & Hw' & Hpre & Hrm).
      { exists w. split; [|exact Hw].
        destruct Hin as [->|Hin]; [congruence|exact Hin]. }
      exists (item :: pre), w', post. rewrite Hrm.
      repeat split; [assumption|]. now constructor.
Qed.

Lemma liquidate_vault_present (v : Vault) (self : VaultUSDSimulator) :
  In v (vaults self) ->
  liquidatable (eth_price self) v = true ->
  exists pre w post,
    vaults self = pre ++ w :: post /\
    py_is w v || Vault_eq w v = true /\
    Forall (fun item => py_is item v || Vault_eq item v = false) pre /\
    liquidate_vault v self =
      Ok (true, {| eth_price := eth_price self; vaults := pre ++ post;
                   history := history self; fresh := fresh self |}).
Proof.
  intros Hin Hliq.
  destruct (list_remove_first_match v (vaults self)) as (pre & w & post & Hvs & Hw & Hpre & Hrm).
  { exists v. split; [exact Hin|]. now rewrite py_is_refl. }
  exists pre, w, post. repeat split; try assumption.
  now rewrite liquidate_vault_run, Hliq, Hrm.
Qed.

(** C7, at two vaults opened with the same arguments: both are in the
    registry and liquidatable at the price 1000; [liquidate_vault] called
    with the second one returns [True], yet the second one is still in the
    registry afterwards and the first one is gone; a second call with the
    same vault returns [True] again. *)
Theorem liquidate_vault_removes_the_twin :
  (create_vault "user1" (of_int 1) (of_int 1000) ;;
   create_vault "user1" (of_int 1) (of_int 1000)) (init (of_int 1000))
    = Ok (twin2, twins) /\
  twin1 <> twin2 /\
  In twin2 (vaults twins) /\
  is_liquidatable twin2 twins = Ok (true, twins) /\
  liquidate_vault twin2 twins =
    Ok (true, {| eth_price := of_int 1000; vaults := [twin2];
                 history := []; fresh := 2 |}) /\
  liquidate_vault twin2
    {| eth_price := of_int 1000; vaults := [twin2]; history := []; fresh := 2 |} =
    Ok (true, {| eth_price := of_int 1000; vaults := [];
                 history := []; fresh := 2 |}).
Proof.
  split; [reflexivity|]. split; [discriminate|].
  split; [right; left; reflexivity|].
  repeat split; vm_compute; reflexivity.
Qed.

(** ** The price shock scenario *)

(** C9: in [simulate_price_shock] the three vaults are all in the registry
    after every update to a price of at least 1100 (2000, 1800, 1600, 1400
    and 1200), the update to 1000 removes the three of them at once, and
    the simulator that is returned has an empty registry and a last
    snapshot with total debt zero and the ratio [inf]. *)
Theorem simulate_price_shock_outcome :
  vaults_after 0 = Some [user1; user2; user3] /\
  (forall k price, nth_error shock_prices k = Some price ->
     vaults_after (S k) =
       Some (if (1100 <=? price)%Z then [user1; user2; user3] else [])) /\
  vaults_after 5 = Some [user1; user2; user3] /\
  nth_error shock_prices 5 = Some 1000%Z /\
  vaults_after 6 = Some [] /\
  exists sim earlier,
    simulate_price_shock = Ok sim /\
    vaults sim = [] /\
    history sim = earlier ++
      [{| total_collateral_eth := zero; total_debt_susd := zero;
          eth_price_usd := of_int 800; collateralization_ratio := inf;
          timestamp := 7 |}] /\
    List.length earlier = 7.
Proof.
  split; [vm_compute; reflexivity|]. split.
  - intros k price Hk.
    do 7 (destruct k as [|k]; [injection Hk as <-; vm_compute; reflexivity|]).
    destruct k; discriminate Hk.
  - repeat (split; [vm_compute; reflexivity|]).
    destruct simulate_price_shock as [sim|e] eqn:E; vm_compute in E; [|discriminate E].
    injection E as <-.
    eexists. eexists (_ :: _ :: _ :: _ :: _ :: _ :: [_]).
    repeat split.
Qed.

(** * Further properties of the simulator *)

(** ** The two thresholds *)

Lemma is_healthy_run (v : Vault) (self : VaultUSDSimulator) :
  is_healthy v self =
    Ok (fleb COLLATERALIZATION_RATIO (health (eth_price self) v), self).
Proof. unfold is_healthy, bind. now rewrite get_vault_health_run. Qed.

(** A ratio of at least 1.5 is not below 1.1. *)
Lemma above_ratio_not_below_threshold (h : float) :
  fleb COLLATERALIZATION_RATIO h = true -> fltb h LIQUIDATION_THRESHOLD = false.
Proof.
  unfold fleb, fltb, SFleb, SFltb, COLLATERALIZATION_RATIO, LIQUIDATION_THRESHOLD,
    lit_1_5, lit_1_1.
  destruct h as [s|s| |s m e]; cbn [SFcompare]; intro H; try discriminate H.
  - destruct s; [discriminate H|reflexivity].
  - destruct s; [discriminate H|].
    destruct (Z.compare_spec (-52) e) as [He|He|He].
    + subst e. rewrite Z.compare_refl.
      rewrite Pos.compare_cont_spec in H. rewrite Pos.compare_cont_spec.
      cbn [Pos.switch_Eq] in *.
      destruct (Pos.compare_spec 6755399441055744 m) as [Hm|Hm|Hm].
      * subst m. reflexivity.
      * assert (Pos.compare m 4953959590107546 = Gt) as ->
          by (apply Pos.compare_gt_iff; lia).
        reflexivity.
      * discriminate H.
    + assert (Z.compare e (-52) = Gt) as -> by (apply Z.compare_gt_iff; lia).
      reflexivity.
    + discriminate H.
Qed.

(** X1: a vault that [is_healthy] accepts is never liquidatable at the same
    price: [is_liquidatable] answers [False] for it and [liquidate_vault]
    returns [False] without touching the simulator. *)
Theorem healthy_not_liquidatable (v : Vault) (self : VaultUSDSimulator) :
  is_healthy v self = Ok (true, self) ->
  is_liquidatable v self = Ok (false, self) /\
  liquidate_vault v self = Ok (false, self).
Proof.
  rewrite is_healthy_run. intro H.
  assert (fleb COLLATERALIZATION_RATIO (health (eth_price self) v) = true) as Hh
    by (now injection H).
  assert (liquidatable (eth_price self) v = false) as Hl.
  { unfold liquidatable. destruct (feqb (debt_susd v) zero); [reflexivity|].
    now apply above_ratio_not_below_threshold. }
  split.
  - rewrite is_liquidatable_run. now rewrite Hl.
  - now apply liquidate_vault_not_liquidatable.
Qed.

Lemma healthy_not_liquidatable_witness :
  is_healthy user1 three_vaults = Ok (true, three_vaults) /\
  liquidate_vault user1 three_vaults = Ok (false, three_vaults).
Proof.
  assert (is_healthy user1 three_vaults = Ok (true, three_vaults)) as H
    by (vm_compute; reflexivity).
  split; [exact H|].
  exact (proj2 (healthy_not_liquidatable user1 three_vaults H)).
Defined.

(** ** Vaults without debt *)

Lemma debt_free_not_liquidatable (p : float) (v : Vault) :
  feqb (debt_susd v) zero = true -> liquidatable p v = false.
Proof. intro H. unfold liquidatable. now rewrite H. Qed.

(** X2: a vault whose debt equals zero is healthy at every price, whatever
    its collateral: [is_healthy] answers [True], and [liquidate_vault]
    returns [False] and leaves the simulator as it was. *)
Theorem debt_free_vault_is_healthy (v : Vault) (self : VaultUSDSimulator) :
  feqb (debt_susd v) zero = true ->
  is_healthy v self = Ok (true, self) /\
  liquidate_vault v self = Ok (false, self).
Proof.
  intro H. split.
  - rewrite is_healthy_run. unfold health. now rewrite H.
  - apply liquidate_vault_not_liquidatable. now apply debt_free_not_liquidatable.
Qed.

Lemma debt_free_vault_is_healthy_witness :
  feqb (debt_susd debt_free) zero = true /\
  is_healthy debt_free only_debt_free = Ok (true, only_debt_free) /\
  liquidate_vault debt_free only_debt_free = Ok (false, only_debt_free).
Proof.
  split; [reflexivity|].
  exact (debt_free_vault_is_healthy debt_free only_debt_free eq_refl).
Defined.

Lemma wf_only_debt_free : wf only_debt_free.
Proof.
  split.
  - intros a b [<-|[]] [<-|[]] _. reflexivity.
  - repeat constructor.
Qed.

(** X3: a vault of the registry whose debt equals zero is still in the
    registry after [update_price], at every price. *)
Theorem debt_free_vault_survives_update_price
    (v : Vault) (p : float) (self : VaultUSDSimulator) :
  wf self ->
  In v (vaults self) ->
  feqb (debt_susd v) zero = true ->
  exists self',
    update_price p self = Ok (tt, self') /\ In v (vaults self').
Proof.
  intros Hwf Hin Hz. exists (swept p self).
  split; [now apply update_price_run|].
  cbn [swept vaults]. unfold survivors. apply filter_In. split; [exact Hin|].
  now rewrite (debt_free_not_liquidatable p v Hz).
Qed.

Lemma debt_free_vault_survives_update_price_witness :
  wf only_debt_free /\
  In debt_free (vaults only_debt_free) /\
  feqb (debt_susd debt_free) zero = true /\
  exists self',
    update_price zero only_debt_free = Ok (tt, self') /\ In debt_free (vaults self').
Proof.
  split; [exact wf_only_debt_free|].
  split; [left; reflexivity|]. split; [reflexivity|].
  exact (debt_free_vault_survives_update_price debt_free zero only_debt_free
           wf_only_debt_free (or_introl eq_refl) eq_refl).
Defined.

(** ** Prices at the edge: NaN and zero *)

Lemma nan_price_not_liquidatable (v : Vault) : liquidatable nan v = false.
Proof.
  unfold liquidatable, health.
  destruct (feqb (debt_susd v) zero); [reflexivity|].
  destruct (collateral_eth v); reflexivity.
Qed.

Lemma survivors_all (p : float) (vs : list Vault) :
  (forall v, In v vs -> liquidatable p v = false) -> survivors p vs = vs.
Proof.
  unfold survivors. induction vs as [|v vs IH]; intro H; [reflexivity|].
  cbn [filter]. rewrite (H v (or_introl eq_refl)). cbn [negb].
  f_equal. apply IH. intros w Hw. apply H. now right.
Qed.

(** X4: when the new price is NaN, [update_price] stores it and removes no
    vault at all: every comparison of a health with the threshold is
    [False]. *)
Theorem update_price_nan_removes_nothing (self : VaultUSDSimulator) :
  wf self ->
  update_price nan self =
    Ok (tt, {| eth_price := nan; vaults := vaults self;
               history := history self; fresh := fresh self |}).
Proof.
  intro Hwf. rewrite (update_price_run nan self Hwf). unfold swept.
  rewrite survivors_all; [reflexivity|].
  intros v _. apply nan_price_not_liquidatable.
Qed.

Lemma update_price_nan_removes_nothing_witness :
  wf three_vaults /\
  update_price nan three_vaults =
    Ok (tt, {| eth_price := nan; vaults := [user1; user2; user3];
               history := []; fresh := 3 |}).
Proof.
  split; [exact wf_three_vaults|].
  exact (update_price_nan_removes_nothing three_vaults wf_three_vaults).
Defined.

Lemma zero_price_liquidatable (v : Vault) :
  is_finite (collateral_eth v) = true ->
  is_finite (debt_susd v) = true ->
  feqb (debt_susd v) zero = false ->
  liquidatable zero v = true.
Proof.
  unfold liquidatable, health. intros Hc Hd Hz. rewrite Hz.
  destruct (collateral_eth v) as [sc|sc| |sc mc ec]; try discriminate Hc;
    destruct (debt_susd v) as [sd|sd| |sd md ed]; try discriminate Hd;
    try discriminate Hz; reflexivity.
Qed.

(** X5: at the price zero, [update_price] removes every vault of the
    registry that has a finite collateral and a finite debt other than
    zero, however large the collateral. *)
Theorem update_price_zero_removes_indebted (self : VaultUSDSimulator) :
  wf self ->
  exists self',
    update_price zero self = Ok (tt, self') /\
    eth_price self' = zero /\
    (forall v, In v (vaults self) ->
       is_finite (collateral_eth v) = true ->
       is_finite (debt_susd v) = true ->
       feqb (debt_susd v) zero = false ->
       ~ In v (vaults self')).
Proof.
  intro Hwf. exists (swept zero self).
  split; [now apply update_price_run|]. split; [reflexivity|].
  intros v _ Hc Hd Hz Hin. cbn [swept vaults] in Hin.
  unfold survivors in Hin. apply filter_In in Hin. destruct Hin as [_ Hin].
  rewrite (zero_price_liquidatable v Hc Hd Hz) in Hin. discriminate Hin.
Qed.

Lemma update_price_zero_removes_indebted_witness :
  wf three_vaults /\
  exists self',
    update_price zero three_vaults = Ok (tt, self') /\
    ~ In user1 (vaults self').
Proof.
  split; [exact wf_three_vaults|].
  destruct (update_price_zero_removes_indebted three_vaults wf_three_vaults)
    as (self' & Hrun & _ & Hgone).
  exists self'. split; [exact Hrun|].
  apply Hgone; [left; reflexivity | reflexivity | reflexivity | reflexivity].
Defined.

(** ** Liquidation is final *)

(** X6: after two successive price updates the registry holds exactly the
    vaults that were liquidatable at neither price: a vault removed at the
    first price does not come back, whatever the second price is. *)
Theorem liquidated_vault_never_returns (p q : float) (self : VaultUSDSimulator) :
  wf self ->
  exists self2,
    (update_price p ;; update_price q) self = Ok (tt, self2) /\
    eth_price self2 = q /\
    history self2 = history self /\
    (forall v, In v (vaults self2) <->
       In v (vaults self) /\ liquidatable p v = false /\ liquidatable q v = false).
Proof.
  intro Hwf. exists (swept q (swept p self)).
  split.
  - unfold bind. rewrite (update_price_run p self Hwf).
    now apply update_price_run, wf_swept.
  - split; [reflexivity|]. split; [reflexivity|].
    intro v. cbn [swept vaults]. unfold survivors.
    rewrite !filter_In, !negb_true_iff. tauto.
Qed.

Lemma liquidated_vault_never_returns_witness :
  wf three_vaults /\
  exists self2,
    (update_price (of_int 1000) ;; update_price (of_int 2000)) three_vaults
      = Ok (tt, self2) /\
    ~ In user1 (vaults self2).
Proof.
  split; [exact wf_three_vaults|].
  destruct (liquidated_vault_never_returns (of_int 1000) (of_int 2000) three_vaults
              wf_three_vaults) as (self2 & Hrun & _ & _ & Hiff).
  exists self2. split; [exact Hrun|].
  intro Hin. apply Hiff in Hin. destruct Hin as (_ & H & _).
  vm_compute in H. discriminate H.
Defined.

(** ** [liquidate_vault] and the registry *)

Lemma list_remove_none (x : Vault) (l : list Vault) :
  Forall (fun item => py_is item x || Vault_eq item x = false) l ->
  list_remove x l = None.
Proof.
  induction 1 as [|item l Hitem _ IH]; cbn [list_remove]; [reflexivity|].
  now rewrite Hitem, IH.
Qed.

Lemma list_remove_length (x : Vault) (l l' : list Vault) :
  list_remove x l = Some l' -> List.length l = S (List.length l').
Proof.
  revert l'. induction l as [|item l IH]; intros l'; cbn [list_remove].
  - discriminate.
  - destruct (py_is item x || Vault_eq item x).
    + now intros [= <-].
    + destruct (list_remove x l) as [r|]; [|discriminate].
      intros [= <-]. cbn [List.length]. f_equal. now apply IH.
Qed.

(** X7: for a vault that no entry of the registry is or equals,
    [liquidate_vault] raises [ValueError] when the vault is liquidatable at
    the current price, and returns [False] with the simulator untouched
    when it is not. *)
Theorem liquidate_vault_absent (v : Vault) (self : VaultUSDSimulator) :
  Forall (fun item => py_is item v || Vault_eq item v = false) (vaults self) ->
  (is_liquidatable v self = Ok (true, self) ->
     liquidate_vault v self = Raise ValueError) /\
  (is_liquidatable v self = Ok (false, self) ->
     liquidate_vault v self = Ok (false, self)).
Proof.
  intro Habs. rewrite is_liquidatable_run, liquidate_vault_run.
  split; intro H.
  - assert (liquidatable (eth_price self) v = true) as -> by (now injection H).
    now rewrite (list_remove_none v _ Habs).
  - assert (liquidatable (eth_price self) v = false) as -> by (now injection H).
    reflexivity.
Qed.

Lemma liquidate_vault_absent_witness :
  Forall (fun item => py_is item stranger || Vault_eq item stranger = false)
    (vaults three_vaults_at_1000) /\
  liquidate_vault stranger three_vaults_at_1000 = Raise ValueError.
Proof.
  assert (Forall (fun item => py_is item stranger || Vault_eq item stranger = false)
            (vaults three_vaults_at_1000)) as Habs
    by (repeat constructor).
  split; [exact Habs|].
  apply (proj1 (liquidate_vault_absent stranger three_vaults_at_1000 Habs)).
  vm_compute. reflexivity.
Defined.

(** X8: liquidating twice a liquidatable vault that is in the registry, and
    that no other entry is or equals, succeeds the first time and raises
    [ValueError] the second time. *)
Theorem liquidate_vault_twice_raises
    (v : Vault) (pre post : list Vault) (self : VaultUSDSimulator) :
  vaults self = pre ++ v :: post ->
  Forall (fun item => py_is item v || Vault_eq item v = false) (pre ++ post) ->
  is_liquidatable v self = Ok (true, self) ->
  liquidate_vault v self =
    Ok (true, {| eth_price := eth_price self; vaults := pre ++ post;
                 history := history self; fresh := fresh self |}) /\
  (liquidate_vault v ;; liquidate_vault v) self = Raise ValueError.
Proof.
  intros Hvs Hothers Hliq.
  rewrite is_liquidatable_run in Hliq.
  assert (liquidatable (eth_price self) v = true) as Hl by (now injection Hliq).
  assert (Forall (fun item => py_is item v || Vault_eq item v = false) pre) as Hpre
    by (apply Forall_app in Hothers; tauto).
  assert (liquidate_vault v self =
            Ok (true, {| eth_price := eth_price self; vaults := pre ++ post;
                         history := history self; fresh := fresh self |})) as H1
    by (now apply liquidate_vault_removes_it).
  split; [exact H1|].
  unfold bind. rewrite H1, liquidate_vault_run. cbn [eth_price vaults].
  now rewrite Hl, (list_remove_none v _ Hothers).
Qed.

Lemma liquidate_vault_twice_raises_witness :
  (liquidate_vault user2 ;; liquidate_vault user2) three_vaults_at_1000
    = Raise ValueError.
Proof.
  refine (proj2 (liquidate_vault_twice_raises user2 [user1] [user3]
                   three_vaults_at_1000 eq_refl _ _)).
  - repeat constructor.
  - vm_compute. reflexivity.
Defined.

(** X9: a call of [liquidate_vault] that returns leaves price, history and
    allocator alone and adds nothing to the registry; it returns [True]
    exactly when the vault is liquidatable, and then the registry is one
    entry shorter, otherwise the registry is unchanged. *)
Theorem liquidate_vault_frame (v : Vault) (b : bool) (self self' : VaultUSDSimulator) :
  liquidate_vault v self = Ok (b, self') ->
  eth_price self' = eth_price self /\
  history self' = history self /\
  fresh self' = fresh self /\
  is_liquidatable v self = Ok (b, self) /\
  incl (vaults self') (vaults self) /\
  (if b then List.length (vaults self) = S (List.length (vaults self'))
   else vaults self' = vaults self).
Proof.
  rewrite liquidate_vault_run, is_liquidatable_run.
  destruct (liquidatable (eth_price self) v).
  - destruct (list_remove v (vaults self)) as [vs'|] eqn:Hrm; [|discriminate].
    intros [= <- <-]. cbn [eth_price history fresh vaults].
    repeat split.
    + now apply (list_remove_incl v).
    + now apply (list_remove_length v).
  - intros [= <- <-]. repeat split. apply incl_refl.
Qed.

Lemma liquidate_vault_frame_witness :
  exists self',
    liquidate_vault twin2 twins = Ok (true, self') /\
    List.length (vaults self') = 1 /\
    history self' = [].
Proof.
  assert (exists self', liquidate_vault twin2 twins = Ok (true, self')) as [self' H]
    by (eexists; vm_compute; reflexivity).
  exists self'. split; [exact H|].
  destruct (liquidate_vault_frame twin2 true twins self' H)
    as (_ & Hh & _ & _ & _ & Hlen).
  split; [|exact Hh].
  cbn [vaults twins List.length] in Hlen. now injection Hlen.
Defined.

(** X10: opening a vault and liquidating it at once restores the registry,
    when the new vault is liquidatable at the current price and no vault
    already in the registry equals it: the registry, the price and the
    history are those from before [create_vault]. *)
Theorem create_then_liquidate_restores
    (o : string) (collateral debt : float) (self : VaultUSDSimulator) :
  wf self ->
  Forall (fun item =>
            Vault_eq item {| ident := fresh self; collateral_eth := collateral;
                             debt_susd := debt; owner := o |} = false)
         (vaults self) ->
  liquidatable (eth_price self)
    {| ident := fresh self; collateral_eth := collateral;
       debt_susd := debt; owner := o |} = true ->
  (v <- create_vault o collateral debt ;; liquidate_vault v) self =
    Ok (true, {| eth_price := eth_price self; vaults := vaults self;
                 history := history self; fresh := S (fresh self) |}).
Proof.
  intros [_ Hlt] Hneq Hliq.
  unfold bind. rewrite create_vault_run. cbv beta iota zeta.
  rewrite liquidate_vault_run. cbn [eth_price vaults history fresh].
  rewrite Hliq, list_remove_here, app_nil_r; [reflexivity|].
  rewrite Forall_forall in *. intros item Hitem.
  rewrite (Hneq item Hitem), orb_false_r.
  unfold py_is. cbn [ident]. apply Nat.eqb_neq.
  specialize (Hlt item Hitem). lia.
Qed.

Lemma create_then_liquidate_restores_witness :
  wf three_vaults /\
  (v <- create_vault "user4" (of_int 1) (of_int 10000) ;; liquidate_vault v) three_vaults =
    Ok (true, {| eth_price := of_int 2000; vaults := [user1; user2; user3];
                 history := []; fresh := 4 |}).
Proof.
  split; [exact wf_three_vaults|].
  refine (create_then_liquidate_restores "user4" (of_int 1) (of_int 10000)
            three_vaults wf_three_vaults _ _).
  - repeat constructor.
  - vm_compute. reflexivity.
Defined.

(** ** Snapshots *)

Lemma feqb_zero_is_zero (x : float) : feqb x zero = true -> is_zero x = true.
Proof.
  unfold feqb, SFeqb, zero.
  destruct x as [s|s| |s m e]; cbn [SFcompare is_zero]; intro H;
    try reflexivity; try discriminate H; destruct s; discriminate H.
Qed.

Lemma fold_fadd_zeros (xs : list float) :
  forall acc : float,
    is_zero acc = true ->
    Forall (fun x => is_zero x = true) xs ->
    is_zero (fold_left fadd xs acc) = true.
Proof.
  induction xs as [|x xs IH]; intros acc Hacc Hxs; [exact Hacc|].
  cbn [fold_left]. inversion Hxs as [|? ? Hx Hrest]; subst.
  apply IH; [|exact Hrest].
  destruct acc as [sa| | |]; try discriminate Hacc.
  destruct x as [sx| | |]; try discriminate Hx.
  destruct sa, sx; reflexivity.
Qed.

(** X11: when every vault of the registry has a debt equal to zero, and in
    particular when the registry is empty, the snapshot has a total debt
    equal to zero and the ratio [inf], at every price. *)
Theorem get_system_state_without_debt (ts : Z) (self : VaultUSDSimulator) :
  Forall (fun v => feqb (debt_susd v) zero = true) (vaults self) ->
  exists st,
    get_system_state ts self = Ok (st, self) /\
    feqb (total_debt_susd st) zero = true /\
    collateralization_ratio st = inf.
Proof.
  intro H. eexists. rewrite get_system_state_run. cbv zeta.
  split; [reflexivity|].
  cbn [total_debt_susd collateralization_ratio].
  assert (feqb (py_sum (map debt_susd (vaults self))) zero = true) as Hz.
  { apply is_zero_feqb_zero. unfold py_sum.
    apply fold_fadd_zeros; [reflexivity|].
    apply Forall_map. eapply Forall_impl; [|exact H].
    intros v Hv. now apply feqb_zero_is_zero. }
  now rewrite Hz.
Qed.

Lemma get_system_state_without_debt_witness :
  Forall (fun v => feqb (debt_susd v) zero = true) (vaults only_debt_free) /\
  exists st,
    get_system_state 0 only_debt_free = Ok (st, only_debt_free) /\
    collateralization_ratio st = inf.
Proof.
  assert (Forall (fun v => feqb (debt_susd v) zero = true) (vaults only_debt_free))
    as H by (repeat constructor).
  split; [exact H|].
  destruct (get_system_state_without_debt 0 only_debt_free H) as (st & Hrun & _ & Hr).
  exists st. split; assumption.
Defined.

Lemma fadd_zero_l (x : float) : x <> S754_zero true -> fadd zero x = x.
Proof.
  intro H. destruct x as [s|s| |s m e]; try reflexivity.
  destruct s; [now elim H|reflexivity].
Qed.

(** X12: with a single vault in the registry, the ratio of the snapshot is
    the health of that vault (for a collateral other than [-0.0], which the
    sum would turn into [0.0]). *)
Theorem get_system_state_single_vault (ts : Z) (v : Vault) (self : VaultUSDSimulator) :
  vaults self = [v] ->
  collateral_eth v <> S754_zero true ->
  exists st h,
    get_system_state ts self = Ok (st, self) /\
    get_vault_health v self = Ok (h, self) /\
    collateralization_ratio st = h.
Proof.
  intros Hvs Hc. do 2 eexists.
  rewrite get_system_state_run, get_vault_health_run, Hvs. cbv zeta.
  split; [reflexivity|]. split; [reflexivity|].
  cbn [collateralization_ratio map]. unfold py_sum, health. cbn [fold_left].
  rewrite (fadd_zero_l _ Hc).
  destruct (debt_susd v) as [[|]|[|]| |[|] m e]; reflexivity.
Qed.

Lemma get_system_state_single_vault_witness :
  exists st,
    get_system_state 0 only_debt_free = Ok (st, only_debt_free) /\
    get_vault_health debt_free only_debt_free =
      Ok (collateralization_ratio st, only_debt_free).
Proof.
  destruct (get_system_state_single_vault 0 debt_free only_debt_free eq_refl)
    as (st & h & Hs & Hh & E).
  - discriminate.
  - exists st. split; [exact Hs|]. now rewrite E.
Defined.

(** X13: a price update followed by [record_state] appends one snapshot to
    the history; it carries the new price and the given timestamp, and its
    totals are the sums over the vaults that survived the update, none of
    which is liquidatable. *)
Theorem update_then_record (p : float) (ts : Z) (self : VaultUSDSimulator) :
  wf self ->
  exists self' st,
    (update_price p ;; record_state ts) self = Ok (tt, self') /\
    history self' = history self ++ [st] /\
    eth_price_usd st = p /\
    timestamp st = ts /\
    total_collateral_eth st = py_sum (map collateral_eth (vaults self')) /\
    total_debt_susd st = py_sum (map debt_susd (vaults self')) /\
    (forall v, In v (vaults self') -> is_liquidatable v self' = Ok (false, self')).
Proof.
  intro Hwf. do 2 eexists.
  unfold bind at 1. rewrite (update_price_run p self Hwf).
  unfold record_state, bind. rewrite get_system_state_run. cbv zeta.
  unfold history_append.
  split; [reflexivity|]. cbn [history vaults swept eth_price].
  repeat (split; [reflexivity|]).
  intros v Hv. unfold survivors in Hv. apply filter_In in Hv.
  destruct Hv as [_ Hv]. apply negb_true_iff in Hv.
  rewrite is_liquidatable_run. cbn [eth_price]. now rewrite Hv.
Qed.

Lemma update_then_record_witness :
  wf three_vaults /\
  exists self' st,
    (update_price (of_int 1000) ;; record_state 6) three_vaults = Ok (tt, self') /\
    history self' = [st] /\
    total_debt_susd st = zero.
Proof.
  split; [exact wf_three_vaults|].
  destruct (update_then_record (of_int 1000) 6 three_vaults wf_three_vaults)
    as (self' & st & Hrun & Hh & _ & _ & _ & Hd & _).
  exists self', st. split; [exact Hrun|]. split; [exact Hh|].
  rewrite Hd.
  assert (vaults self' = []) as ->; [|reflexivity].
  vm_compute in Hrun. now injection Hrun as <-.
Defined.

(** ** The history *)



(** ** The scenario on an arbitrary list of prices *)





(** ** The series that are plotted *)

(** A ratio that [5.0] is not below, and that is not NaN, is at most
    [5.0]. *)
Lemma not_above_cap (x : float) :
  fltb lit_5_0 x = false -> x <> nan -> fleb x lit_5_0 = true.
Proof.
  unfold fltb, fleb, SFltb, SFleb, lit_5_0, nan.
  destruct x as [s|s| |s m e]; cbn [SFcompare]; intros H Hn.
  - reflexivity.
  - destruct s; [reflexivity|discriminate H].
  - elim Hn. reflexivity.
  - destruct s; [reflexivity|].
    destruct (Z.compare_spec (-50) e) as [He|He|He].
    + subst e. rewrite Z.compare_refl.
      rewrite Pos.compare_cont_spec in H. rewrite Pos.compare_cont_spec.
      cbn [Pos.switch_Eq] in *.
      destruct (Pos.compare_spec 5629499534213120 m) as [Hm|Hm|Hm].
      * subst m. rewrite Pos.compare_refl. reflexivity.
      * discriminate H.
      * assert (Pos.compare m 5629499534213120 = Lt) as -> by exact Hm.
        reflexivity.
    + discriminate H.
    + assert (Z.compare e (-50) = Lt) as -> by (apply Z.compare_lt_iff; lia).
      reflexivity.
Qed.

(** X16: the list [ratios] of [plot_simulation] has one entry per snapshot
    of the history, like the four other series; each entry is at most
    [5.0] unless it is NaN, it is [5.0] for a snapshot whose ratio is
    [inf], and it is the ratio of the snapshot whenever that ratio is at
    most [5.0]. *)
Theorem plot_ratios_capped (h : list SystemState) :
  List.length (plot_ratios h) = List.length (plot_timestamps h) /\
  List.length (plot_prices h) = List.length (plot_timestamps h) /\
  List.length (plot_total_debt h) = List.length (plot_timestamps h) /\
  List.length (plot_total_collateral h) = List.length (plot_timestamps h) /\
  forall (i : nat) (st : SystemState),
    nth_error h i = Some st ->
    exists r,
      nth_error (plot_ratios h) i = Some r /\
      (r = nan \/ fleb r lit_5_0 = true) /\
      (collateralization_ratio st = inf -> r = lit_5_0) /\
      (fleb (collateralization_ratio st) lit_5_0 = true ->
         r = collateralization_ratio st).
Proof.
  unfold plot_ratios, plot_timestamps, plot_prices, plot_total_debt,
    plot_total_collateral.
  rewrite !length_map. repeat (split; [reflexivity|]).
  intros i st Hi.
  exists (py_min (collateralization_ratio st) lit_5_0).
  split; [exact (map_nth_error _ _ _ Hi)|].
  unfold py_min.
  destruct (fltb lit_5_0 (collateralization_ratio st)) eqn:Hlt.
  - split; [right; reflexivity|]. split; [intros _; reflexivity|].
    intro Hle. exfalso. revert Hlt Hle.
    unfold fltb, fleb, SFltb, SFleb, lit_5_0.
    destruct (collateralization_ratio st) as [s|s| |s m e]; cbn [SFcompare].
    + discriminate.
    + destruct s; discriminate.
    + discriminate.
    + destruct s; [discriminate|].
      destruct (Z.compare_spec (-50) e) as [He|He|He].
      * subst e. rewrite Z.compare_refl.
        rewrite !Pos.compare_cont_spec. cbn [Pos.switch_Eq].
        rewrite (Pos.compare_antisym 5629499534213120 m).
        destruct (Pos.compare 5629499534213120 m); discriminate.
      * assert (Z.compare e (-50) = Gt) as -> by (apply Z.compare_gt_iff; lia).
        discriminate.
      * discriminate.
  - split; [|split].
    + destruct (collateralization_ratio st) as [s|s| |s m e] eqn:E.
      * right. apply not_above_cap; [exact Hlt|discriminate].
      * right. apply not_above_cap; [exact Hlt|discriminate].
      * left. reflexivity.
      * right. apply not_above_cap; [exact Hlt|discriminate].
    + intro E. rewrite E in Hlt. discriminate Hlt.
    + intros _. reflexivity.
Qed.

Lemma plot_ratios_capped_witness :
  nth_error (history recorded_once) 0 =
    Some {| total_collateral_eth := zero; total_debt_susd := zero;
            eth_price_usd := of_int 2000; collateralization_ratio := inf;
            timestamp := 0 |} /\
  nth_error (plot_ratios (history recorded_once)) 0 = Some lit_5_0.
Proof.
  split; [reflexivity|].
  destruct (proj2 (proj2 (proj2 (proj2 (plot_ratios_capped (history recorded_once)))))
              0%nat _ eq_refl) as (r & Hr & _ & Hinf & _).
  rewrite Hr. f_equal. apply Hinf. reflexivity.
Defined.
